(** * Response shaping of the REST route handlers

    A shallow embedding of the route modules [flavor.js], [ingredient.js],
    [ingredients.js] and [ingredientCategories.js]: the validation chains
    each route declares, the handler bodies with their single data-access
    call, and the responses they produce.  The Preparations list route,
    whose module is not among the sources, is added from the spec.

    The first part is the embedding; the second part, from [Properties]
    on, states and proves what the handlers do. *)

From Stdlib Require Import ZArith Ascii String.
From stdpp Require Import base option list strings gmap pretty.

Set Warnings "-register-all".

Local Open Scope string_scope.
Local Open Scope Z_scope.

(** ** JavaScript values

    Numbers are the integer-valued doubles [VNum n] and [VNaN]; the
    arithmetic below is exact, as it is in JavaScript between
    [-(2^53 - 1)] and [2^53 - 1].  Objects keep their own enumerable
    properties in insertion order. *)

Inductive Value : Type :=
| VUndefined
| VNull
| VBool (b : bool)
| VNaN
| VNum (n : Z)
| VStr (s : string)
| VArr (elems : list Value)
| VObj (props : list (string * Value)).

(** [!v] is [negb (truthy v)]. *)
Definition truthy (v : Value) : bool :=
  match v with
  | VUndefined | VNull | VNaN => false
  | VBool b => b
  | VNum n => negb (n =? 0)
  | VStr s => negb (String.eqb s "")
  | VArr _ | VObj _ => true
  end.

(** [a || b] *)
Definition js_or (a b : Value) : Value := if truthy a then a else b.

Definition is_space (c : ascii) : bool :=
  let n := nat_of_ascii c in
  ((9 <=? n) && (n <=? 13) || (n =? 32))%nat.

Definition is_digit (c : ascii) : bool :=
  let n := nat_of_ascii c in ((48 <=? n) && (n <=? 57))%nat.

Definition digit_value (c : ascii) : Z := Z.of_nat (nat_of_ascii c) - 48.

Fixpoint skip_spaces (s : string) : string :=
  match s with
  | String c s' => if is_space c then skip_spaces s' else s
  | EmptyString => s
  end.

(** The longest prefix of decimal digits of [s], read most significant
    digit first onto the accumulator, and how many digits were read. *)
Fixpoint read_digits (acc : Z) (count : nat) (s : string) : Z * nat * string :=
  match s with
  | String c s' =>
      if is_digit c then read_digits (10 * acc + digit_value c) (S count) s'
      else (acc, count, s)
  | EmptyString => (acc, count, s)
  end.

(** A leading sign: [(negative, rest)]. *)
Definition read_sign (s : string) : bool * string :=
  match s with
  | String "-" s' => (true, s')
  | String "+" s' => (false, s')
  | _ => (false, s)
  end.

(** [parseInt(s, 10)]: leading white space (the ASCII white space, in
    these byte strings), a sign, then as many digits as there are; [NaN]
    when there is none. *)
Definition parseInt (s : string) : Value :=
  let '(neg, s1) := read_sign (skip_spaces s) in
  let '(n, count, _) := read_digits 0 0 s1 in
  match count with
  | O => VNaN
  | _ => VNum (if neg then - n else n)
  end.

(** [Number(s)] for the strings whose value is an integer: white space
    around a signed run of digits, and the empty string, which is [0].
    Literals with a fraction, an exponent or a radix prefix have no
    counterpart in [Value]; [ToNumber_string] sends them to [NaN], and
    [validated_pagination_is_numeric] shows that no validated request
    reaches [js_sub] with a string. *)
Definition ToNumber_string (s : string) : Value :=
  let s0 := skip_spaces s in
  let '(neg, s1) := read_sign s0 in
  let '(n, count, rest) := read_digits 0 0 s1 in
  match s0, count, skip_spaces rest with
  | EmptyString, _, _ => VNum 0
  | _, S _, EmptyString => VNum (if neg then - n else n)
  | _, _, _ => VNaN
  end.

(** [ToNumber(v)]; arrays and objects go through [ToPrimitive], which is
    not modelled. *)
Definition ToNumber (v : Value) : Value :=
  match v with
  | VUndefined => VNaN
  | VNull => VNum 0
  | VBool b => VNum (if b then 1 else 0)
  | VNaN => VNaN
  | VNum n => VNum n
  | VStr s => ToNumber_string s
  | VArr _ | VObj _ => VNaN
  end.

(** [a - b] *)
Definition js_sub (a b : Value) : Value :=
  match ToNumber a, ToNumber b with
  | VNum x, VNum y => VNum (x - y)
  | _, _ => VNaN
  end.

(** [String(v)], as a template literal applies it.  An array joins its
    elements with commas, [null] and [undefined] elements as empty. *)
Fixpoint ToString (v : Value) : string :=
  match v with
  | VUndefined => "undefined"
  | VNull => "null"
  | VBool b => if b then "true" else "false"
  | VNaN => "NaN"
  | VNum n => pretty n
  | VStr s => s
  | VArr elems =>
      let element x := match x with VUndefined | VNull => "" | _ => ToString x end in
      (fix join (xs : list Value) : string :=
         match xs with
         | [] => ""
         | [x] => element x
         | x :: xs' => element x +:+ "," +:+ join xs'
         end) elems
  | VObj _ => "[object Object]"
  end.

(** A thrown [Error]. *)
Record Fault : Type := { name : string; message : string }.

(** [v.length].  Reading a property of [null] or [undefined] throws a
    [TypeError]; primitives other than strings have no [length]. *)
Definition TypeError_length (v : Value) : Fault :=
  {| name := "TypeError";
     message := "Cannot read property 'length' of " +:+ ToString v |}.

Fixpoint get_prop (key : string) (props : list (string * Value)) : Value :=
  match props with
  | [] => VUndefined
  | (k, v) :: rest => if String.eqb k key then v else get_prop key rest
  end.

Definition js_length (v : Value) : Fault + Value :=
  match v with
  | VUndefined | VNull => inl (TypeError_length v)
  | VBool _ | VNaN | VNum _ => inr VUndefined
  | VStr s => inr (VNum (Z.of_nat (String.length s)))
  | VArr elems => inr (VNum (Z.of_nat (List.length elems)))
  | VObj props => inr (get_prop "length" props)
  end.

(** [a === b] against a number literal. *)
Definition strict_eq_num (a : Value) (n : Z) : bool :=
  match a with
  | VNum m => m =? n
  | _ => false
  end.

Definition isArray (v : Value) : bool :=
  match v with VArr _ => true | _ => false end.

(** ** The string validators (validator.js)

    express-validator hands every field to these as a string. *)

Module validatorjs.

(** An optional sign, then digits, or digits (possibly none), a point
    and at least one digit. *)
Definition isNumeric (str : string) : bool :=
  let '(_, s1) := read_sign str in
  let '(_, whole, rest) := read_digits 0 0 s1 in
  match rest with
  | EmptyString => (0 <? whole)%nat
  | String "." frac =>
      let '(_, digits, rest') := read_digits 0 0 frac in
      (0 <? digits)%nat && String.eqb rest' ""
  | _ => false
  end.

(** An optional sign, then [0] or digits that do not start with [0];
    then [str >= options.min] when the options have a [min]. *)
Definition isInt (min : option Z) (str : string) : bool :=
  let '(neg, s1) := read_sign str in
  let '(n, digits, rest) := read_digits 0 0 s1 in
  let leading_zero :=
    match s1 with String "0" (String _ _) => true | _ => false end in
  (0 <? digits)%nat && String.eqb rest "" && negb leading_zero &&
  match min with
  | Some m => m <=? (if neg then - n else n)
  | None => true
  end.

Fixpoint remove_spaces (s : string) : string :=
  match s with
  | String " " s' => remove_spaces s'
  | String c s' => String c (remove_spaces s')
  | EmptyString => EmptyString
  end.

(** With the default options: an optional sign, optional digits, and
    optionally a point with at least one digit; the string without its
    spaces must not be empty or a bare sign (the black list). *)
Definition isDecimal (str : string) : bool :=
  let '(_, s1) := read_sign str in
  let '(_, _, rest) := read_digits 0 0 s1 in
  let matches :=
    match rest with
    | EmptyString => true
    | String "." frac =>
        let '(_, digits, rest') := read_digits 0 0 frac in
        (0 <? digits)%nat && String.eqb rest' ""
    | _ => false
    end in
  let bare := remove_spaces str in
  matches && negb (String.eqb bare "" || String.eqb bare "-" || String.eqb bare "+").

(** [isLength(str, { min })]: with [min <= 1] the test is the same whether
    the length counts bytes, code units or code points. *)
Definition isLength (min : nat) (str : string) : bool :=
  (min <=? String.length str)%nat.

Definition toInt (str : string) : Value := parseInt str.

End validatorjs.

(** ** Requests and the validation chains (express-validator)

    A raw request carries its path parameters, query parameters and body
    fields as strings.  The chains of a route run before its handler:
    they collect the error descriptors and write the sanitized values
    back into the request the handler reads. *)

Inductive Location : Type := Params | Query | Body.

Definition location_name (l : Location) : string :=
  match l with Params => "params" | Query => "query" | Body => "body" end.

Record RawRequest : Type := {
  raw_params : gmap string string;
  raw_query : gmap string string;
  raw_body : gmap string string
}.

(** An error descriptor, [{ value, msg, param, location }]; the [value] of
    an absent field is [undefined]. *)
Record ValidationError : Type := {
  value : option string;
  msg : string;
  param : string;
  location : Location
}.

(** The request object a handler reads: [req.params], [req.query],
    [req.body], and the errors the chains have attached to it. *)
Module Req.
Record t : Type := {
  params : gmap string Value;
  query : gmap string Value;
  body : gmap string Value;
  validationErrors : list ValidationError
}.
End Req.
Abbreviation Request := Req.t.

(** [o.key]: a missing property reads as [undefined]. *)
Definition prop (o : gmap string Value) (key : string) : Value :=
  default VUndefined (o !! key).

Module ExpressValidator.

Inductive Validator : Type :=
| IsNumeric
| IsInt (min : option Z)
| IsString
| IsLength (min : nat)
| IsDecimal.

Record Check : Type := { validator : Validator; error_message : string }.

(** One chain: the field it selects, whether it is [optional()], its
    validators in declaration order, and whether it ends in [toInt()].
    Every chain of the routes has its sanitizer last and no field has two
    chains, so the validators see the field as it arrived. *)
Record Chain : Type := {
  chain_location : Location;
  field : string;
  is_optional : bool;
  checks : list Check;
  sanitizer : bool
}.

(** The field a chain selects, [None] when the request has none. *)
Definition select (raw : RawRequest) (l : Location) (f : string) : option string :=
  match l with
  | Params => raw_params raw !! f
  | Query => raw_query raw !! f
  | Body => raw_body raw !! f
  end.

(** A standard validator sees [toString(value)], the empty string for
    [undefined]; [isString] tests [typeof value === 'string']. *)
Definition passes (v : Validator) (raw : option string) : bool :=
  let str := default "" raw in
  match v with
  | IsNumeric => validatorjs.isNumeric str
  | IsInt min => validatorjs.isInt min str
  | IsString => bool_decide (is_Some raw)
  | IsLength min => validatorjs.isLength min str
  | IsDecimal => validatorjs.isDecimal str
  end.

Definition failures (c : Chain) (raw : option string) : list ValidationError :=
  omap (fun k =>
          if passes (validator k) raw then None
          else Some {| value := raw; msg := error_message k; param := field c;
                       location := chain_location c |})
       (checks c).

Definition set_field (l : Location) (f : string) (v : Value) (req : Request) : Request :=
  match l with
  | Params => {| Req.params := <[f := v]> (Req.params req); Req.query := Req.query req;
        Req.body := Req.body req;
        Req.validationErrors := Req.validationErrors req |}
  | Query => {| Req.params := Req.params req; Req.query := <[f := v]> (Req.query req);
        Req.body := Req.body req;
        Req.validationErrors := Req.validationErrors req |}
  | Body => {| Req.params := Req.params req; Req.query := Req.query req;
        Req.body := <[f := v]> (Req.body req);
        Req.validationErrors := Req.validationErrors req |}
  end.

Definition add_errors (es : list ValidationError) (req : Request) : Request :=
  {| Req.params := Req.params req; Req.query := Req.query req;
     Req.body := Req.body req;
     Req.validationErrors := Req.validationErrors req ++ es |}.

(** Running one chain.  An [optional()] chain whose field is [undefined]
    is skipped whole: no validator runs and nothing is written back. *)
Definition run_chain (raw : RawRequest) (req : Request) (c : Chain) : Request :=
  let v := select raw (chain_location c) (field c) in
  if is_optional c && bool_decide (v = None) then req
  else
    let req' :=
      if sanitizer c
      then set_field (chain_location c) (field c) (validatorjs.toInt (default "" v)) req
      else req in
    add_errors (failures c v) req'.

Definition incoming (raw : RawRequest) : Request :=
  {| Req.params := VStr <$> raw_params raw;
     Req.query := VStr <$> raw_query raw;
     Req.body := VStr <$> raw_body raw;
     Req.validationErrors := [] |}.

(** The middleware array of a route. *)
Definition run (chains : list Chain) (raw : RawRequest) : Request :=
  foldl (run_chain raw) (incoming raw) chains.

(** [validationResult(req)], with its [isEmpty()] and [array()]. *)
Definition validationResult (req : Request) : list ValidationError :=
  Req.validationErrors req.

Definition isEmpty (errors : list ValidationError) : bool :=
  match errors with [] => true | _ => false end.

Definition array (errors : list ValidationError) : Value :=
  VArr (map (fun e =>
               VObj [("value", from_option VStr VUndefined (value e));
                     ("msg", VStr (msg e));
                     ("param", VStr (param e));
                     ("location", VStr (location_name (location e)))])
            errors).

(** The chain builders, as the routes write them. *)

Definition chain (l : Location) (f : string) : Chain :=
  {| chain_location := l; field := f; is_optional := false;
     checks := []; sanitizer := false |}.

Definition param := chain Params.
Definition query := chain Query.
Definition body := chain Body.

Definition check (v : Validator) (c : Chain) : Chain :=
  {| chain_location := chain_location c; field := field c;
     is_optional := is_optional c;
     checks := checks c ++ [{| validator := v; error_message := "Invalid value" |}];
     sanitizer := sanitizer c |}.

Definition isNumeric := check IsNumeric.
Definition isInt (min : Z) := check (IsInt (Some min)).
Definition isString := check IsString.
Definition isLength (min : nat) := check (IsLength min).
Definition isDecimal := check IsDecimal.

Definition optional (c : Chain) : Chain :=
  {| chain_location := chain_location c; field := field c;
     is_optional := true; checks := checks c; sanitizer := sanitizer c |}.

Definition toInt (c : Chain) : Chain :=
  {| chain_location := chain_location c; field := field c;
     is_optional := is_optional c; checks := checks c; sanitizer := true |}.

(** [withMessage] names the message of the validator before it. *)
Fixpoint set_last_message (m : string) (cs : list Check) : list Check :=
  match cs with
  | [] => []
  | [c] => [{| validator := validator c; error_message := m |}]
  | c :: cs' => c :: set_last_message m cs'
  end.

Definition withMessage (m : string) (c : Chain) : Chain :=
  {| chain_location := chain_location c; field := field c;
     is_optional := is_optional c;
     checks := set_last_message m (checks c); sanitizer := sanitizer c |}.

End ExpressValidator.

(** ** The data-access facade

    Each handler issues one operation on one model and awaits its
    outcome: the promise resolves with a value or rejects with a fault. *)

Inductive Model : Type :=
| DataSupplier | Flavor | FlavorIdentifier | UserFlavorNote | UserProfile
| Vendor | Ingredient | IngredientCategory | Preparation.

(** An entry of [include], [{ model, require }]. *)
Record Include : Type := { model : Model; require : bool }.

(** The options object of an operation; a property the call does not
    write is [None] (or the empty list). *)
Record Options : Type := {
  where_ : list (string * Value);
  include : list Include;
  limit : option Value;
  offset : option Value;
  order : list (string * string)
}.

Definition no_options : Options :=
  {| where_ := []; include := []; limit := None; offset := None; order := [] |}.

Inductive Operation : Type :=
| findOne (m : Model) (options : Options)
| findAll (m : Model) (options : Options)
| count (m : Model)
| create (m : Model) (values : list (string * Value))
| update (m : Model) (values : list (string * Value)) (options : Options)
| destroy (m : Model) (options : Options).

Definition Outcome : Type := Fault + Value.

(** ** Responses

    What a handler has done to [res]: the status it set, the argument of
    its [res.type] call, and what it sent with [end], [json] or [send]. *)

Inductive Sent : Type :=
| NotSent
| Ended
| Json (v : Value)
| Text (s : string).

Record Response : Type := {
  statusCode : Z;
  contentType : option string;
  sent : Sent
}.

(** The response object a handler is given: status 200, nothing sent. *)
Definition fresh : Response :=
  {| statusCode := 200; contentType := None; sent := NotSent |}.

Module res.

Definition status (code : Z) (r : Response) : Response :=
  {| statusCode := code; contentType := contentType r; sent := sent r |}.

Definition type (t : string) (r : Response) : Response :=
  {| statusCode := statusCode r; contentType := Some t; sent := sent r |}.

Definition json (v : Value) (r : Response) : Response :=
  {| statusCode := statusCode r; contentType := contentType r; sent := Json v |}.

Definition send (s : string) (r : Response) : Response :=
  {| statusCode := statusCode r; contentType := contentType r; sent := Text s |}.

Definition end_ (r : Response) : Response :=
  {| statusCode := statusCode r; contentType := contentType r; sent := Ended |}.

End res.

Notation "x |> f" := (f x) (at level 45, left associativity, only parsing).

(** ** Handler programs

    An [async] handler body: it returns, throws, writes a log line, or
    awaits one facade operation.  The collaborators are given to the
    program when it runs. *)

Inductive Level : Type := Info | Error.

Inductive Handler (A : Type) : Type :=
| Return (a : A)
| Throw (e : Fault)
| Log (logger : string) (l : Level) (m : string) (k : Handler A)
| Await (op : Operation) (k : Outcome -> Handler A).

Arguments Return {A} a.
Arguments Throw {A} e.
Arguments Log {A} logger l m k.
Arguments Await {A} op k.

Fixpoint bind {A B : Type} (h : Handler A) (f : A -> Handler B) : Handler B :=
  match h with
  | Return a => f a
  | Throw e => Throw e
  | Log logger l m k => Log logger l m (bind k f)
  | Await op k => Await op (fun o => bind (k o) f)
  end.

#[global] Instance Handler_ret : MRet Handler := @Return.
#[global] Instance Handler_bind : MBind Handler := fun A B f h => bind h f.

(** [try { body } catch (error) { handler }] *)
Fixpoint try_catch {A : Type} (body : Handler A) (handler : Fault -> Handler A) : Handler A :=
  match body with
  | Return a => Return a
  | Throw e => handler e
  | Log logger l m k => Log logger l m (try_catch k handler)
  | Await op k => Await op (fun o => try_catch (k o) handler)
  end.

(** [await op]: the value the promise resolves with; a rejection is
    thrown at the [await]. *)
Definition await (op : Operation) : Handler Value :=
  Await op (fun o => match o with inl e => Throw e | inr v => Return v end).

(** [log.info(m)] and [log.error(m)] on the logger of a route module. *)
Definition log_info (logger m : string) : Handler unit := Log logger Info m (Return tt).
Definition log_error (logger m : string) : Handler unit := Log logger Error m (Return tt).

(** [v.length === 0], which throws when [v.length] does. *)
Definition length_is_zero (v : Value) : Handler bool :=
  match js_length v with
  | inl e => Throw e
  | inr len => Return (strict_eq_num len 0)
  end.

(** [a || b] on conditions: [b] is not evaluated when [a] holds. *)
Definition or_else (a : bool) (b : Handler bool) : Handler bool :=
  if a then Return true else b.

(** *** Running a program

    The collaborators act on a world [W] of their own; a run yields what
    the handler returned or the fault that escaped it, the final world,
    and the events in the order they happened. *)

Record Collaborators (W : Type) : Type := {
  logging : string -> Level -> string -> W -> W;
  facade : Operation -> W -> Outcome * W
}.

Arguments logging {W} c logger l m w.
Arguments facade {W} c op w.

Inductive Event : Type :=
| Logged (logger : string) (l : Level) (m : string)
| Called (op : Operation) (o : Outcome).

Record Run (W A : Type) : Type := {
  result : Fault + A;
  world : W;
  trace : list Event
}.

Arguments result {W A} r.
Arguments world {W A} r.
Arguments trace {W A} r.

Definition after {W A : Type} (e : Event) (r : Run W A) : Run W A :=
  {| result := result r; world := world r; trace := e :: trace r |}.

Fixpoint run {W A : Type} (c : Collaborators W) (h : Handler A) (w : W) : Run W A :=
  match h with
  | Return a => {| result := inr a; world := w; trace := [] |}
  | Throw e => {| result := inl e; world := w; trace := [] |}
  | Log logger l m k => after (Logged logger l m) (run c k (logging c logger l m w))
  | Await op k =>
      let '(o, w') := facade c op w in
      after (Called op o) (run c (k o) w')
  end.

(** The operations a run has issued, and the outcomes it was given. *)
Definition calls (t : list Event) : list Operation :=
  omap (fun e => match e with Called op _ => Some op | _ => None end) t.

Definition outcomes (t : list Event) : list Outcome :=
  omap (fun e => match e with Called _ o => Some o | _ => None end) t.

Definition logged (t : list Event) : list (Level * string) :=
  omap (fun e => match e with Logged _ l m => Some (l, m) | _ => None end) t.

(** ** Routes

    A route is its array of validation chains and its handler.  The
    authentication middleware in front of both is an external guard; the
    model starts behind it. *)

Record Route : Type := {
  chains : list ExpressValidator.Chain;
  handler : Request -> Response -> Handler Response
}.

Definition dispatch (r : Route) (raw : RawRequest) : Handler Response :=
  handler r (ExpressValidator.run (chains r) raw) fresh.

(** [{ model: m, require: true }] *)
Definition including (m : Model) : Include := {| model := m; require := true |}.

(** *** flavor.js *)

Module flavor.
Import ExpressValidator.

Definition log : string := "flavor".

(** GET Flavor by ID: [router.get('/:id', ...)] *)
Definition get_id : Route := {|
  chains := [ param "id" |> isNumeric |> isInt 1 |> toInt ];
  handler req res :=
    let errors := validationResult req in
    if negb (isEmpty errors) then
      Return (res |> res.status 400 |> res.json (VObj [("errors", array errors)]))
    else
      let id := prop (Req.params req) "id" in
      log_info log ("request for " +:+ ToString id);;
      try_catch (
        result ← await (findOne Flavor
          {| where_ := [("id", id)];
             include := [including Vendor];
             limit := None; offset := None; order := [] |});
        if negb (truthy result) then
          Return (res |> res.status 204 |> res.end_)
        else
          let res := res |> res.type "application/json" in
          Return (res |> res.json result)
      ) (fun error =>
        log_error log (message error);;
        Return (res |> res.status 500 |> res.send (message error)))
|}.

(** POST Create a Flavor: [router.post('/', ...)] *)
Definition post : Route := {|
  chains :=
    [ body "vendorId" |> isNumeric |> isInt 1 |> toInt;
      body "name" |> isString |> isLength 1 |> withMessage "length";
      body "slug" |> isString |> isLength 1 |> withMessage "length";
      body "density" |> isDecimal ];
  handler req res :=
    let errors := validationResult req in
    if negb (isEmpty errors) then
      Return (res |> res.status 400 |> res.json (VObj [("errors", array errors)]))
    else
      let vendorId := prop (Req.body req) "vendorId" in
      let name := prop (Req.body req) "name" in
      let slug := prop (Req.body req) "slug" in
      let density := prop (Req.body req) "density" in
      log_info log "request for new flavor";;
      try_catch (
        result ← await (create Flavor
          [("vendorId", vendorId); ("name", name); ("slug", slug);
           ("density", density)]);
        empty ← length_is_zero result;
        if empty : bool then
          Return (res |> res.status 204 |> res.end_)
        else
          let res := res |> res.type "application/json" in
          Return (res |> res.json result)
      ) (fun error =>
        log_error log (message error);;
        Return (res |> res.status 500 |> res.send (message error)))
|}.

(** PUT Updates a Flavor: [router.put('/:id', ...)] *)
Definition put_id : Route := {|
  chains :=
    [ param "id" |> isNumeric |> isInt 1 |> toInt;
      body "vendorId" |> isNumeric |> isInt 1 |> toInt;
      body "name" |> isString |> isLength 1 |> withMessage "length";
      body "slug" |> isString |> isLength 1 |> withMessage "length";
      body "density" |> isDecimal ];
  handler req res :=
    let errors := validationResult req in
    if negb (isEmpty errors) then
      Return (res |> res.status 400 |> res.json (VObj [("errors", array errors)]))
    else
      let id := prop (Req.params req) "id" in
      let vendorId := prop (Req.body req) "vendorId" in
      let name := prop (Req.body req) "name" in
      let slug := prop (Req.body req) "slug" in
      let density := prop (Req.body req) "density" in
      log_info log ("request to update flavor id " +:+ ToString id);;
      try_catch (
        result ← await (update Flavor
          [("vendorId", vendorId); ("name", name); ("slug", slug);
           ("density", density)]
          {| where_ := [("id", id)];
             include := []; limit := None; offset := None; order := [] |});
        empty ← length_is_zero result;
        if empty : bool then
          Return (res |> res.status 204 |> res.end_)
        else
          let res := res |> res.type "application/json" in
          Return (res |> res.json result)
      ) (fun error =>
        log_error log (message error);;
        Return (res |> res.status 500 |> res.send (message error)))
|}.

(** DELETE Deletes a Flavor: [router.delete('/:id', ...)] *)
Definition delete_id : Route := {|
  chains := [ param "id" |> isNumeric |> isInt 1 |> toInt ];
  handler req res :=
    let errors := validationResult req in
    if negb (isEmpty errors) then
      Return (res |> res.status 400 |> res.json (VObj [("errors", array errors)]))
    else
      let id := prop (Req.params req) "id" in
      log_info log ("request to delete flavor id " +:+ ToString id);;
      try_catch (
        result ← await (destroy Flavor
          {| where_ := [("id", id)];
             include := []; limit := None; offset := None; order := [] |});
        empty ← length_is_zero result;
        if empty : bool then
          Return (res |> res.status 204 |> res.end_)
        else
          let res := res |> res.type "application/json" in
          Return (res |> res.json result)
      ) (fun error =>
        log_error log (message error);;
        Return (res |> res.status 500 |> res.send (message error)))
|}.

(** GET Flavor Data Supplier Identifiers:
    [router.get('/:flavorId/identifiers', ...)] *)
Definition get_identifiers : Route := {|
  chains := [ param "flavorId" |> isNumeric |> isInt 1 |> toInt ];
  handler req res :=
    let errors := validationResult req in
    if negb (isEmpty errors) then
      Return (res |> res.status 400 |> res.json (VObj [("errors", array errors)]))
    else
      let flavorId := prop (Req.params req) "flavorId" in
      log_info log ("request for flavor id " +:+ ToString flavorId +:+ " identifiers");;
      try_catch (
        result ← await (findAll FlavorIdentifier
          {| where_ := [("flavorId", flavorId)];
             include := [including DataSupplier];
             limit := None; offset := None; order := [] |});
        empty ← or_else (negb (isArray result)) (length_is_zero result);
        if empty : bool then
          Return (res |> res.status 204 |> res.end_)
        else
          let res := res |> res.type "application/json" in
          Return (res |> res.json result)
      ) (fun error =>
        log_error log (message error);;
        Return (res |> res.status 500 |> res.send (message error)))
|}.

(** GET Flavor Data Supplier Identifier:
    [router.get('/:flavorId/identifier/:dataSupplierId', ...)] *)
Definition get_identifier : Route := {|
  chains :=
    [ param "flavorId" |> isNumeric |> isInt 1 |> toInt;
      param "dataSupplierId" |> isNumeric |> isInt 1 |> toInt ];
  handler req res :=
    let errors := validationResult req in
    if negb (isEmpty errors) then
      Return (res |> res.status 400 |> res.json (VObj [("errors", array errors)]))
    else
      let flavorId := prop (Req.params req) "flavorId" in
      let dataSupplierId := prop (Req.params req) "dataSupplierId" in
      log_info log
        ("request for flavor id " +:+ ToString flavorId +:+
         " data supplier id " +:+ ToString dataSupplierId +:+ " identifer");;
      try_catch (
        result ← await (findOne FlavorIdentifier
          {| where_ := [("flavorId", flavorId); ("dataSupplierId", dataSupplierId)];
             include := [including DataSupplier];
             limit := None; offset := None; order := [] |});
        if negb (truthy result) then
          Return (res |> res.status 204 |> res.end_)
        else
          let res := res |> res.type "application/json" in
          Return (res |> res.json result)
      ) (fun error =>
        log_error log (message error);;
        Return (res |> res.status 500 |> res.send (message error)))
|}.

(** POST Create a Flavor Identifier:
    [router.post('/:flavorId/identifier', ...)] *)
Definition post_identifier : Route := {|
  chains :=
    [ param "flavorId" |> isNumeric |> isInt 1 |> toInt;
      body "dataSupplierId" |> isNumeric |> isInt 1 |> toInt;
      body "identifier" |> isString |> isLength 1 |> withMessage "length" ];
  handler req res :=
    let errors := validationResult req in
    if negb (isEmpty errors) then
      Return (res |> res.status 400 |> res.json (VObj [("errors", array errors)]))
    else
      let flavorId := prop (Req.params req) "flavorId" in
      let dataSupplierId := prop (Req.body req) "dataSupplierId" in
      let identifier := prop (Req.body req) "identifier" in
      log_info log
        ("request for new flavor identifier for flavor id " +:+ ToString flavorId);;
      try_catch (
        result ← await (create FlavorIdentifier
          [("flavorId", flavorId); ("dataSupplierId", dataSupplierId);
           ("identifier", identifier)]);
        empty ← length_is_zero result;
        if empty : bool then
          Return (res |> res.status 204 |> res.end_)
        else
          let res := res |> res.type "application/json" in
          Return (res |> res.json result)
      ) (fun error =>
        log_error log (message error);;
        Return (res |> res.status 500 |> res.send (message error)))
|}.

(** PUT Update a Flavor Identifier:
    [router.put('/:flavorId/identifier/:dataSupplierId', ...)] *)
Definition put_identifier : Route := {|
  chains :=
    [ param "flavorId" |> isNumeric |> isInt 1 |> toInt;
      param "dataSupplierId" |> isNumeric |> isInt 1 |> toInt;
      body "identifier" |> isString |> isLength 1 |> withMessage "length" ];
  handler req res :=
    let errors := validationResult req in
    if negb (isEmpty errors) then
      Return (res |> res.status 400 |> res.json (VObj [("errors", array errors)]))
    else
      let flavorId := prop (Req.params req) "flavorId" in
      let dataSupplierId := prop (Req.params req) "dataSupplierId" in
      let identifier := prop (Req.body req) "identifier" in
      log_info log
        ("request to update flavor id " +:+ ToString flavorId +:+
         " identifier id " +:+ ToString dataSupplierId);;
      try_catch (
        result ← await (update FlavorIdentifier
          [("identifier", identifier)]
          {| where_ := [("flavorId", flavorId); ("dataSupplierId", dataSupplierId)];
             include := []; limit := None; offset := None; order := [] |});
        empty ← length_is_zero result;
        if empty : bool then
          Return (res |> res.status 204 |> res.end_)
        else
          let res := res |> res.type "application/json" in
          Return (res |> res.json result)
      ) (fun error =>
        log_error log (message error);;
        Return (res |> res.status 500 |> res.send (message error)))
|}.

(** DELETE a Flavor Identifier:
    [router.delete('/:flavorId/identifier/:dataSupplierId', ...)] *)
Definition delete_identifier : Route := {|
  chains :=
    [ param "flavorId" |> isNumeric |> isInt 1 |> toInt;
      param "dataSupplierId" |> isNumeric |> isInt 1 |> toInt ];
  handler req res :=
    let errors := validationResult req in
    if negb (isEmpty errors) then
      Return (res |> res.status 400 |> res.json (VObj [("errors", array errors)]))
    else
      let flavorId := prop (Req.params req) "flavorId" in
      let dataSupplierId := prop (Req.params req) "dataSupplierId" in
      log_info log
        ("request to delete flavor id " +:+ ToString flavorId +:+
         " identifier id " +:+ ToString dataSupplierId);;
      try_catch (
        result ← await (destroy FlavorIdentifier
          {| where_ := [("flavorId", flavorId); ("dataSupplierId", dataSupplierId)];
             include := []; limit := None; offset := None; order := [] |});
        empty ← or_else (negb (truthy result)) (length_is_zero result);
        if empty : bool then
          Return (res |> res.status 204 |> res.end_)
        else
          let res := res |> res.type "application/json" in
          Return (res |> res.json result)
      ) (fun error =>
        log_error log (message error);;
        Return (res |> res.status 500 |> res.send (message error)))
|}.

(** GET Flavor Notes: [router.get('/:flavorId/notes', ...)] *)
Definition get_notes : Route := {|
  chains := [ param "flavorId" |> isNumeric |> isInt 1 |> toInt ];
  handler req res :=
    let errors := validationResult req in
    if negb (isEmpty errors) then
      Return (res |> res.status 400 |> res.json (VObj [("errors", array errors)]))
    else
      let flavorId := prop (Req.params req) "flavorId" in
      log_info log ("request for flavor id " +:+ ToString flavorId +:+ " notes");;
      try_catch (
        result ← await (findAll UserFlavorNote
          {| where_ := [("flavorId", flavorId)];
             include := [including Flavor; including UserProfile];
             limit := None; offset := None; order := [] |});
        empty ← or_else (negb (isArray result)) (length_is_zero result);
        if empty : bool then
          Return (res |> res.status 204 |> res.end_)
        else
          let res := res |> res.type "application/json" in
          Return (res |> res.json result)
      ) (fun error =>
        log_error log (message error);;
        Return (res |> res.status 500 |> res.send (message error)))
|}.

End flavor.

(** *** ingredients.js *)

Module ingredients.
Import ExpressValidator.

Definition log : string := "ingredients".

(** GET Ingredients: [router.get('/', ...)] *)
Definition get : Route := {|
  chains :=
    [ query "offset" |> optional |> isNumeric |> toInt;
      query "limit" |> optional |> isNumeric |> toInt ];
  handler req res :=
    let errors := validationResult req in
    if negb (isEmpty errors) then
      Return (res |> res.status 400 |> res.json (VObj [("errors", array errors)]))
    else
      let limit := js_or (prop (Req.query req) "limit") (VNum 20) in
      let offset := js_or (js_sub (prop (Req.query req) "offset") (VNum 1)) (VNum 0) in
      log_info log ("request for ingredients " +:+ ToString limit);;
      try_catch (
        result ← await (findAll Ingredient
          {| where_ := [];
             include := [including IngredientCategory];
             limit := Some limit; offset := Some offset; order := [] |});
        empty ← or_else (negb (isArray result)) (length_is_zero result);
        if empty : bool then
          Return (res |> res.status 204 |> res.end_)
        else
          let res := res |> res.type "application/json" in
          Return (res |> res.json result)
      ) (fun error =>
        log_error log (message error);;
        Return (res |> res.status 500 |> res.send (message error)))
|}.

(** GET Ingredient Stats: [router.get('/count', ...)] *)
Definition get_count : Route := {|
  chains := [];
  handler req res :=
    log_info log "request for ingredient stats";;
    try_catch (
      result ← await (count Ingredient);
      let res := res |> res.type "application/json" in
      Return (res |> res.json result)
    ) (fun error =>
      log_error log (message error);;
      Return (res |> res.status 500 |> res.send (message error)))
|}.

End ingredients.

(** *** ingredientCategories.js *)

Module ingredientCategories.
Import ExpressValidator.

Definition log : string := "Ingredient categories".

(** GET Ingredient Categories: [router.get('/', ...)] *)
Definition get : Route := {|
  chains :=
    [ query "offset" |> optional |> isNumeric |> toInt;
      query "limit" |> optional |> isNumeric |> toInt ];
  handler req res :=
    let errors := validationResult req in
    if negb (isEmpty errors) then
      Return (res |> res.status 400 |> res.json (VObj [("errors", array errors)]))
    else
      let limit := js_or (prop (Req.query req) "limit") (VNum 20) in
      let offset := js_or (js_sub (prop (Req.query req) "offset") (VNum 1)) (VNum 0) in
      log_info log ("request for Ingredient categories " +:+ ToString limit);;
      try_catch (
        result ← await (findAll IngredientCategory
          {| where_ := [];
             include := [];
             limit := Some limit; offset := Some offset;
             order := [("id", "ASC")] |});
        empty ← or_else (negb (isArray result)) (length_is_zero result);
        if empty : bool then
          Return (res |> res.status 204 |> res.end_)
        else
          let res := res |> res.type "application/json" in
          Return (res |> res.json result)
      ) (fun error =>
        log_error log (message error);;
        Return (res |> res.status 500 |> res.send (message error)))
|}.

(** GET Ingredient Categories Stats: [router.get('/count', ...)] *)
Definition get_count : Route := {|
  chains := [];
  handler req res :=
    log_info log "request for Ingredient categories stats";;
    try_catch (
      result ← await (count IngredientCategory);
      let res := res |> res.type "application/json" in
      Return (res |> res.json result)
    ) (fun error =>
      log_error log (message error);;
      Return (res |> res.status 500 |> res.send (message error)))
|}.

End ingredientCategories.

(** *** ingredient.js *)

Module ingredient.
Import ExpressValidator.

Definition log : string := "ingredient".

(** GET Ingredient: [router.get('/:id', ...)] *)
Definition get_id : Route := {|
  chains := [ param "id" |> isNumeric |> isInt 1 |> toInt ];
  handler req res :=
    let errors := validationResult req in
    if negb (isEmpty errors) then
      Return (res |> res.status 400 |> res.json (VObj [("errors", array errors)]))
    else
      let id := prop (Req.params req) "id" in
      log_info log ("request for " +:+ ToString id);;
      try_catch (
        result ← await (findOne Ingredient
          {| where_ := [("id", id)];
             include := [including IngredientCategory];
             limit := None; offset := None; order := [] |});
        if negb (truthy result) then
          Return (res |> res.status 204 |> res.end_)
        else
          let res := res |> res.type "application/json" in
          Return (res |> res.json result)
      ) (fun error =>
        log_error log (message error);;
        Return (res |> res.status 500 |> res.send (message error)))
|}.

End ingredient.

(** *** preparations.js *)

Module preparations.
Import ExpressValidator.

Definition log : string := "preparations".

(** Modelled from the spec: the Preparations list route, whose module is
    not among the sources (only its test is).  The spec lists it as a
    paginated [findAll] with optional [offset] and [limit] and no included
    relation, under the handler contract of the other list routes:
    validate, default the limit to 20, compute the offset as
    [offset - 1 || 0], query once, answer 204 for an empty or missing
    list, 200 with the raw result otherwise, 500 with the message on a
    fault.  The spec does not give the text of its log line; it follows
    the other list routes. *)
Definition get : Route := {|
  chains :=
    [ query "offset" |> optional |> isNumeric |> toInt;
      query "limit" |> optional |> isNumeric |> toInt ];
  handler req res :=
    let errors := validationResult req in
    if negb (isEmpty errors) then
      Return (res |> res.status 400 |> res.json (VObj [("errors", array errors)]))
    else
      let limit := js_or (prop (Req.query req) "limit") (VNum 20) in
      let offset := js_or (js_sub (prop (Req.query req) "offset") (VNum 1)) (VNum 0) in
      log_info log ("request for preparations " +:+ ToString limit);;
      try_catch (
        result ← await (findAll Preparation
          {| where_ := [];
             include := [];
             limit := Some limit; offset := Some offset; order := [] |});
        empty ← or_else (negb (isArray result)) (length_is_zero result);
        if empty : bool then
          Return (res |> res.status 204 |> res.end_)
        else
          let res := res |> res.type "application/json" in
          Return (res |> res.json result)
      ) (fun error =>
        log_error log (message error);;
        Return (res |> res.status 500 |> res.send (message error)))
|}.

End preparations.

(** ** The API surface *)

Inductive Endpoint : Type :=
| FlavorById | FlavorCreate | FlavorUpdate | FlavorDelete
| FlavorIdentifiers | FlavorIdentifierByPair | FlavorIdentifierCreate
| FlavorIdentifierUpdate | FlavorIdentifierDelete | FlavorNotes
| IngredientList | IngredientById | IngredientCount
| IngredientCategoryList | IngredientCategoryCount
| PreparationsList.

Definition route (e : Endpoint) : Route :=
  match e with
  | FlavorById => flavor.get_id
  | FlavorCreate => flavor.post
  | FlavorUpdate => flavor.put_id
  | FlavorDelete => flavor.delete_id
  | FlavorIdentifiers => flavor.get_identifiers
  | FlavorIdentifierByPair => flavor.get_identifier
  | FlavorIdentifierCreate => flavor.post_identifier
  | FlavorIdentifierUpdate => flavor.put_identifier
  | FlavorIdentifierDelete => flavor.delete_identifier
  | FlavorNotes => flavor.get_notes
  | IngredientList => ingredients.get
  | IngredientById => ingredient.get_id
  | IngredientCount => ingredients.get_count
  | IngredientCategoryList => ingredientCategories.get
  | IngredientCategoryCount => ingredientCategories.get_count
  | PreparationsList => preparations.get
  end.

(** The request as the handler of [e] receives it, and the handler's
    program on it. *)
Definition validated (e : Endpoint) (raw : RawRequest) : Request :=
  ExpressValidator.run (chains (route e)) raw.

Definition serve (e : Endpoint) (raw : RawRequest) : Handler Response :=
  dispatch (route e) raw.

Definition valid (e : Endpoint) (raw : RawRequest) : Prop :=
  Req.validationErrors (validated e raw) = [].

Definition paginated (e : Endpoint) : bool :=
  match e with
  | IngredientList | IngredientCategoryList | PreparationsList => true
  | _ => false
  end.

Definition single_entity (e : Endpoint) : bool :=
  match e with
  | FlavorById | IngredientById | FlavorIdentifierByPair => true
  | _ => false
  end.

Definition mutation (e : Endpoint) : bool :=
  match e with
  | FlavorCreate | FlavorUpdate | FlavorDelete
  | FlavorIdentifierCreate | FlavorIdentifierUpdate | FlavorIdentifierDelete => true
  | _ => false
  end.

Definition counting (e : Endpoint) : bool :=
  match e with
  | IngredientCount | IngredientCategoryCount => true
  | _ => false
  end.

(** ** Answers, and what the properties speak about

    The definitions below are read off the handler bodies or name the
    inputs the properties quantify over; the facts about them follow. *)

(** The 400 answer: [res.status(400).json({ errors: errors.array() })]. *)
Definition bad_request (errors : list ValidationError) : Response :=
  {| statusCode := 400; contentType := None;
     sent := Json (VObj [("errors", ExpressValidator.array errors)]) |}.

(** The other three answers: [res.status(204).end()], [res.type(...)] with
    [res.json(v)], and [res.status(500).send(m)]. *)
Definition no_content : Response :=
  {| statusCode := 204; contentType := None; sent := Ended |}.

Definition ok (v : Value) : Response :=
  {| statusCode := 200; contentType := Some "application/json"; sent := Json v |}.

Definition server_error (m : string) : Response :=
  {| statusCode := 500; contentType := None; sent := Text m |}.

(** [v.length === 0] where [v.length] can be read. *)
Definition has_zero_length (v : Value) : bool :=
  match js_length v with
  | inr len => strict_eq_num len 0
  | inl _ => false
  end.

(** Which answer each handler gives to the value its operation resolved
    with; [run_resolved] proves that this is what the handlers do.  A
    handler that reads [v.length] without a guard answers 500 when the
    read throws. *)
Definition answer (e : Endpoint) (v : Value) : Response :=
  match e with
  | FlavorById | IngredientById | FlavorIdentifierByPair =>
      if truthy v then ok v else no_content
  | FlavorIdentifiers | FlavorNotes
  | IngredientList | IngredientCategoryList | PreparationsList =>
      if isArray v && negb (has_zero_length v) then ok v else no_content
  | IngredientCount | IngredientCategoryCount => ok v
  | FlavorIdentifierDelete =>
      if negb (truthy v) || has_zero_length v then no_content else ok v
  | FlavorCreate | FlavorUpdate | FlavorDelete
  | FlavorIdentifierCreate | FlavorIdentifierUpdate =>
      match js_length v with
      | inl error => server_error (message error)
      | inr len => if strict_eq_num len 0 then no_content else ok v
      end
  end.

(** A program that awaits nothing. *)
Fixpoint awaits_nothing {A : Type} (h : Handler A) : Prop :=
  match h with
  | Return _ | Throw _ => True
  | Log _ _ _ k => awaits_nothing k
  | Await _ _ => False
  end.


(** The route table of the spec: the entity a single-entity GET looks up
    and the relation it includes. *)
Definition declared_lookup (e : Endpoint) : option (Model * Model) :=
  match e with
  | FlavorById => Some (Flavor, Vendor)
  | IngredientById => Some (Ingredient, IngredientCategory)
  | FlavorIdentifierByPair => Some (FlavorIdentifier, DataSupplier)
  | _ => None
  end.

(** The one mutation handler that tests [!result] before the length. *)
Definition identifier_delete (e : Endpoint) : bool :=
  match e with FlavorIdentifierDelete => true | _ => false end.

(** The descriptor [isInt({ min: 1 })] leaves for the path parameter
    [id] of value [0]. *)
Definition id_0_rejected : ValidationError :=
  {| value := Some "0"; msg := "Invalid value"; param := "id"; location := Params |}.

(** ** Sample collaborators and requests *)

(** A logger that keeps its lines and a facade that settles every
    operation with the same outcome. *)
Definition settling (o : Outcome) : Collaborators (list string) :=
  {| logging := fun _ _ m w => m :: w; facade := fun _ w => (o, w) |}.


(** A request from its path parameters, query parameters and body fields. *)
Definition request (ps qs bs : list (string * string)) : RawRequest :=
  {| raw_params := list_to_map ps; raw_query := list_to_map qs;
     raw_body := list_to_map bs |}.

(** A flavor row with its vendor, as [findOne] with [include] returns it. *)
Definition pear : Value :=
  VObj [("id", VNum 123); ("name", VStr "Pear");
        ("Vendor", VObj [("code", VStr "CAP"); ("name", VStr "Capella")])].

(** A fault of the facade. *)
Definition connection_refused : Fault :=
  {| name := "SequelizeConnectionRefusedError";
     message := "connect ECONNREFUSED 127.0.0.1:5432" |}.

(** ** Two more groups of routes *)

(** The list routes, paginated or not. *)
Definition listing (e : Endpoint) : bool :=
  match e with
  | FlavorIdentifiers | FlavorNotes
  | IngredientList | IngredientCategoryList | PreparationsList => true
  | _ => false
  end.

(** The mutation handlers that read [result.length] without a guard. *)
Definition unguarded_mutation (e : Endpoint) : bool :=
  mutation e && negb (identifier_delete e).

(** * Properties *)

(** ** The string functions on examples *)

Example parseInt_examples :
  parseInt "0" = VNum 0 /\ parseInt "800000" = VNum 800000 /\
  parseInt "-12" = VNum (-12) /\ parseInt "1.5" = VNum 1 /\
  parseInt ".5" = VNaN /\ parseInt "stop" = VNaN /\ parseInt "" = VNaN.
Proof. repeat split; reflexivity. Qed.

Example ToString_examples :
  ToString (VNum 20) = "20" /\ ToString (VNum (-1)) = "-1" /\
  ToString (VArr [VNum 1; VNull; VStr "a"]) = "1,,a".
Proof. repeat split; vm_compute; reflexivity. Qed.

Example isNumeric_examples :
  validatorjs.isNumeric "0" = true /\ validatorjs.isNumeric "+12" = true /\
  validatorjs.isNumeric ".5" = true /\ validatorjs.isNumeric "1." = false /\
  validatorjs.isNumeric "ham" = false /\ validatorjs.isNumeric "stop" = false /\
  validatorjs.isNumeric "" = false /\ validatorjs.isNumeric "1.2.3" = false.
Proof. repeat split; reflexivity. Qed.

Example isInt_examples :
  validatorjs.isInt (Some 1) "0" = false /\ validatorjs.isInt (Some 1) "1" = true /\
  validatorjs.isInt (Some 1) "123" = true /\ validatorjs.isInt (Some 1) "-5" = false /\
  validatorjs.isInt (Some 1) "01" = false /\ validatorjs.isInt (Some 1) "1.5" = false /\
  validatorjs.isInt None "-0" = true.
Proof. repeat split; reflexivity. Qed.

Example isDecimal_examples :
  validatorjs.isDecimal "1.03" = true /\ validatorjs.isDecimal ".5" = true /\
  validatorjs.isDecimal "7" = true /\ validatorjs.isDecimal "" = false /\
  validatorjs.isDecimal "+" = false /\ validatorjs.isDecimal "1." = false.
Proof. repeat split; reflexivity. Qed.

(** ** Running programs: equations and general facts *)

Arguments prop : simpl never.
Arguments ToString : simpl never.

Section Runs.
Context {W : Type} (c : Collaborators W).

(** The equations of [run]. *)
Lemma run_Return {A} (a : A) w :
  run c (Return a) w = {| result := inr a; world := w; trace := [] |}.
Proof. reflexivity. Qed.

Lemma run_Log {A} logger l m (k : Handler A) w :
  run c (Log logger l m k) w =
  after (Logged logger l m) (run c k (logging c logger l m w)).
Proof. reflexivity. Qed.

Lemma run_Await {A} op (k : Outcome -> Handler A) w :
  run c (Await op k) w =
  after (Called op (facade c op w).1) (run c (k (facade c op w).1) (facade c op w).2).
Proof. simpl. destruct (facade c op w); reflexivity. Qed.

End Runs.


(** ** Validation: general facts *)

Section Validation.
Import ExpressValidator.

(** A chain adds its failures to the errors, unless it is skipped. *)
Lemma run_chain_errors raw req ch :
  Req.validationErrors (run_chain raw req ch) =
  (Req.validationErrors req ++
   (if is_optional ch && bool_decide (select raw (chain_location ch) (field ch) = None)
    then []
    else failures ch (select raw (chain_location ch) (field ch))))%list.
Proof.
  unfold run_chain.
  destruct (is_optional ch && bool_decide (_ = None)).
  - by rewrite app_nil_r.
  - destruct (sanitizer ch); [destruct (chain_location ch) |]; reflexivity.
Qed.

(** The errors of a request are those of its chains, in order. *)
Lemma foldl_run_chain_errors raw chs : forall req,
  Req.validationErrors (foldl (run_chain raw) req chs) =
  (Req.validationErrors req ++
   concat (map (fun ch =>
                  if is_optional ch &&
                     bool_decide (select raw (chain_location ch) (field ch) = None)
                  then []
                  else failures ch (select raw (chain_location ch) (field ch)))
               chs))%list.
Proof.
  induction chs as [| ch chs IH]; intros req; simpl.
  - by rewrite app_nil_r.
  - rewrite IH, run_chain_errors. by rewrite <- app_assoc.
Qed.



End Validation.

(** ** The shape of every handler *)

(** The count routes declare no chain and never consult the errors. *)
Lemma counting_valid e raw : counting e = true -> valid e raw.
Proof. destruct e; try discriminate; intros _; reflexivity. Qed.

(** Proofs about a handler take the validated request as a whole. *)
Ltac on_validated e raw :=
  unfold valid, serve, dispatch in *; fold (validated e raw) in *;
  generalize dependent (validated e raw); intros req; intros.

(** A request with validation errors is answered at once. *)
Lemma serve_invalid e raw :
  ~ valid e raw ->
  serve e raw = Return (bad_request (Req.validationErrors (validated e raw))).
Proof.
  intros Hinv.
  destruct (counting e) eqn:Hc.
  { exfalso. by apply Hinv, counting_valid. }
  on_validated e raw.
  destruct e; try discriminate Hc;
    simpl; unfold ExpressValidator.validationResult;
    (destruct (Req.validationErrors req); [congruence | reflexivity]).
Qed.

(** A program that awaits nothing leaves no call in its trace. *)
Lemma awaits_nothing_trace {A} (h : Handler A) W (c : Collaborators W) w :
  awaits_nothing h ->
  calls (trace (run c h w)) = [] /\ outcomes (trace (run c h w)) = [].
Proof.
  revert w. induction h as [a | e | logger l m k IH | op k IH]; intros w Hh.
  - split; reflexivity.
  - split; reflexivity.
  - rewrite run_Log. simpl. by apply IH.
  - destruct Hh.
Qed.

(** [enter] opens the handler of each endpoint; [settle] decides the
    tests a handler makes on the value it was given. *)
Ltac enter e :=
  destruct e; simpl;
  unfold ExpressValidator.validationResult, mbind, Handler_bind, mret, Handler_ret,
    length_is_zero, or_else in *; simpl.

Ltac settle :=
  simpl;
  repeat match goal with
    | |- context [js_length ?v] => destruct v; simpl
    | |- context [strict_eq_num ?x 0] => destruct (strict_eq_num x 0); simpl
    | |- context [if negb ?b then _ else _] => destruct b; simpl
    | |- context [if ?b then _ else _] => destruct b; simpl
    end.

(** A valid request is logged, then its one operation is awaited: a
    rejection goes to the [catch] block, and nothing is awaited after
    the outcome. *)
Lemma serve_valid e raw :
  valid e raw ->
  exists logger m op k,
    serve e raw = Log logger Info m (Await op k) /\
    (forall f, k (inl f) =
       Log logger Error (message f)
         (Return {| statusCode := 500; contentType := None; sent := Text (message f) |})) /\
    (forall o, awaits_nothing (k o)).
Proof.
  intros Hv. on_validated e raw.
  enter e; try rewrite Hv; simpl;
    (eexists _, _, _, _; split; [reflexivity | split; [intros f; reflexivity |]]);
    intros [f | v]; settle; exact I.
Qed.

(** The run of a valid request: one log line, one call, and on a
    rejection the [catch] block's log line and answer. *)
Lemma run_valid e raw W (c : Collaborators W) w :
  valid e raw ->
  exists logger m op o,
    calls (trace (run c (serve e raw) w)) = [op] /\
    outcomes (trace (run c (serve e raw) w)) = [o] /\
    forall f, o = inl f ->
      result (run c (serve e raw) w) =
        inr {| statusCode := 500; contentType := None; sent := Text (message f) |} /\
      trace (run c (serve e raw) w) =
        [Logged logger Info m; Called op (inl f); Logged logger Error (message f)].
Proof.
  intros Hv.
  destruct (serve_valid e raw Hv) as (logger & m & op & k & -> & Hcatch & Hquiet).
  rewrite run_Log, run_Await. simpl.
  set (o := (facade c op (logging c logger Info m w)).1).
  set (w' := (facade c op (logging c logger Info m w)).2).
  destruct (awaits_nothing_trace (k o) W c w' (Hquiet o)) as [Hc Ho].
  exists logger, m, op, o. rewrite Hc, Ho.
  split; [reflexivity | split; [reflexivity |]].
  intros f Hf. rewrite Hf, Hcatch. split; reflexivity.
Qed.


(** What the handlers answer to a resolved operation is [answer]. *)
Lemma run_resolved e raw W (c : Collaborators W) w :
  valid e raw ->
  exists op o,
    calls (trace (run c (serve e raw) w)) = [op] /\
    outcomes (trace (run c (serve e raw) w)) = [o] /\
    forall v, o = inr v -> result (run c (serve e raw) w) = inr (answer e v).
Proof.
  intros Hv.
  destruct (run_valid e raw W c w Hv) as (_ & _ & op & o & Hc & Ho & _).
  exists op, o. split; [exact Hc | split; [exact Ho |]].
  revert Ho. clear Hc.
  unfold valid, serve, dispatch in *; fold (validated e raw) in *.
  set (req := validated e raw) in *. clearbody req.
  enter e; try rewrite Hv; simpl;
    destruct (facade c _ _) as [o' w'] eqn:Hfacade; simpl;
    intros [= <- _] v ->; simpl;
    unfold has_zero_length;
    destruct v; simpl; try reflexivity;
    repeat match goal with
      | |- context [strict_eq_num ?x 0] => destruct (strict_eq_num x 0); simpl
      | |- context [if negb ?b then _ else _] => destruct b; simpl
      | |- context [if ?b then _ else _] => destruct b; simpl
      end; reflexivity.
Qed.

(** The outcome a run records is the outcome the handler answered. *)
Lemma answer_of_outcome e raw W (c : Collaborators W) w v :
  valid e raw ->
  outcomes (trace (run c (serve e raw) w)) = [inr v] ->
  result (run c (serve e raw) w) = inr (answer e v).
Proof.
  intros Hv Hout.
  destruct (run_resolved e raw W c w Hv) as (op & o & _ & Ho & Hres).
  rewrite Ho in Hout. injection Hout as ->. by apply Hres.
Qed.

(** ** Validation failures *)




Example get_ham :
  result (run (settling (inr pear)) (serve FlavorById (request [("id", "ham")] [] [])) []) =
  inr {| statusCode := 400; contentType := None;
         sent := Json (VObj [("errors", VArr
           [VObj [("value", VStr "ham"); ("msg", VStr "Invalid value");
                  ("param", VStr "id"); ("location", VStr "params")];
            VObj [("value", VStr "ham"); ("msg", VStr "Invalid value");
                  ("param", VStr "id"); ("location", VStr "params")]])]) |}.
Proof. vm_compute. reflexivity. Qed.

Example get_limit_stop :
  result (run (settling (inr (VArr [pear])))
            (serve IngredientList (request [] [("limit", "stop")] [])) []) =
  inr {| statusCode := 400; contentType := None;
         sent := Json (VObj [("errors", VArr
           [VObj [("value", VStr "stop"); ("msg", VStr "Invalid value");
                  ("param", VStr "limit"); ("location", VStr "query")]])]) |}.
Proof. vm_compute. reflexivity. Qed.

(** ** Facade faults *)

(** C7: on every endpoint, a fault raised by the facade operation is
    caught by the handler: the run logs the fault's message, and nothing
    else of the fault, at level error, answers with status 500 and the
    message as text body, and issues no second operation.  The whole run
    is the request's log line, the one call, and the error line. *)
Theorem facade_fault_is_500 e raw W (c : Collaborators W) w f :
  In (inl f) (outcomes (trace (run c (serve e raw) w))) ->
  let r := run c (serve e raw) w in
  result r =
    inr {| statusCode := 500; contentType := None; sent := Text (message f) |} /\
  (exists logger m op,
      trace r = [Logged logger Info m; Called op (inl f); Logged logger Error (message f)]) /\
  length (calls (trace r)) = 1%nat /\
  logged (trace r) !! 1%nat = Some (Error, message f).
Proof.
  intros Hin r. subst r.
  destruct (decide (valid e raw)) as [Hv | Hinv].
  - destruct (run_valid e raw W c w Hv) as (logger & m & op & o & Hc & Ho & Hfault).
    rewrite Ho in Hin. destruct Hin as [-> | []].
    destruct (Hfault f eq_refl) as [Hres Htr].
    rewrite Hc, Hres, Htr. eauto 10.
  - rewrite (serve_invalid _ _ Hinv) in Hin. destruct Hin.
Qed.

Lemma facade_fault_is_500_witness :
  let r := run (settling (inl connection_refused))
               (serve FlavorById (request [("id", "123")] [] [])) [] in
  In (inl connection_refused) (outcomes (trace r)) /\
  result r =
    inr {| statusCode := 500; contentType := None;
           sent := Text "connect ECONNREFUSED 127.0.0.1:5432" |}.
Proof.
  intros r.
  assert (Hin : In (inl connection_refused) (outcomes (trace r))).
  { vm_compute. left. reflexivity. }
  split; [exact Hin |].
  exact (proj1 (facade_fault_is_500 _ _ _ _ _ _ Hin)).
Defined.

(** ** Logging is a side channel *)



(** ** Lookups of one entity *)

(** C4: on every single-entity GET (flavor by id, ingredient by id,
    flavor identifier by pair) a valid request issues one [findOne] on the
    entity's model that includes the declared relation.  When the facade
    resolves it with [null] the response is 204 with an empty body; when
    it resolves it with an entity (any truthy value, so any object) the
    response is 200 with the raw result as its JSON body, so with
    whatever fields of the entity and of the included relation the facade
    put in it. *)
Theorem single_entity_lookup e raw W (c : Collaborators W) w :
  single_entity e = true -> valid e raw ->
  let r := run c (serve e raw) w in
  exists m rel opts o,
    declared_lookup e = Some (m, rel) /\
    calls (trace r) = [findOne m opts] /\
    include opts = [including rel] /\
    outcomes (trace r) = [o] /\
    (o = inr VNull ->
     result r = inr {| statusCode := 204; contentType := None; sent := Ended |}) /\
    (forall v, o = inr v -> truthy v = true ->
     result r = inr {| statusCode := 200; contentType := Some "application/json";
                       sent := Json v |}).
Proof.
  intros He Hv r. subst r.
  destruct (run_valid e raw W c w Hv) as (_ & _ & op & o & Hc & Ho & _).
  rewrite Hc, Ho. revert Hc Ho.
  unfold valid, serve, dispatch in *; fold (validated e raw) in *.
  set (req := validated e raw) in *. clearbody req.
  destruct e; try discriminate He; simpl;
    unfold ExpressValidator.validationResult, mbind, Handler_bind; rewrite Hv; simpl;
    destruct (facade c _ _) as [o' w'] eqn:Hfacade; simpl;
    intros [= <-] [= <-];
    (eexists _, _, _, o'; split; [reflexivity |]; split; [reflexivity |];
     split; [reflexivity |]; split; [reflexivity |]; split;
     [ intros -> | intros v -> Ht ]; simpl; [| rewrite Ht ]; reflexivity).
Qed.

Lemma single_entity_lookup_witness :
  let raw := request [("id", "123")] [] [] in
  let r := run (settling (inr pear)) (serve FlavorById raw) [] in
  single_entity FlavorById = true /\ valid FlavorById raw /\
  outcomes (trace r) = [inr pear] /\
  result r = inr {| statusCode := 200; contentType := Some "application/json";
                    sent := Json pear |}.
Proof.
  intros raw r.
  assert (Hv : valid FlavorById raw) by (vm_compute; reflexivity).
  assert (Hout : outcomes (trace r) = [inr pear]) by (vm_compute; reflexivity).
  split; [reflexivity | split; [exact Hv | split; [exact Hout |]]].
  destruct (single_entity_lookup FlavorById raw _ (settling (inr pear)) [] eq_refl Hv)
    as (m & rel & opts & o & _ & _ & _ & Ho & _ & Hentity).
  apply Hentity; [| reflexivity].
  subst r. rewrite Ho in Hout. by injection Hout.
Defined.

Example get_123 :
  run (settling (inr pear)) (serve FlavorById (request [("id", "123")] [] [])) [] =
  {| result := inr {| statusCode := 200; contentType := Some "application/json";
                      sent := Json pear |};
     world := ["request for 123"];
     trace := [Logged "flavor" Info "request for 123";
               Called (findOne Flavor
                         {| where_ := [("id", VNum 123)];
                            include := [{| model := Vendor; require := true |}];
                            limit := None; offset := None; order := [] |})
                      (inr pear)] |}.
Proof. vm_compute. reflexivity. Qed.

Example get_missing :
  result (run (settling (inr VNull))
            (serve IngredientById (request [("id", "77")] [] [])) []) =
  inr {| statusCode := 204; contentType := None; sent := Ended |}.
Proof. vm_compute. reflexivity. Qed.

(** ** Lists *)

(** C1 (as the spec states it) fails: the ingredient list, asked for an
    offset far beyond its rows and given an empty array by the facade,
    answers 204 with an empty body, not 200 with an empty JSON array. *)
Lemma empty_page_is_not_200 :
  let raw := request [] [("offset", "800000")] [] in
  let r := run (settling (inr (VArr []))) (serve IngredientList raw) [] in
  paginated IngredientList = true /\ valid IngredientList raw /\
  outcomes (trace r) = [inr (VArr [])] /\
  result r = inr {| statusCode := 204; contentType := None; sent := Ended |} /\
  ~ (exists response,
        result r = inr response /\
        statusCode response = 200 /\ sent response = Json (VArr [])).
Proof.
  intros raw r.
  assert (Hr : result r = inr {| statusCode := 204; contentType := None; sent := Ended |})
    by (vm_compute; reflexivity).
  split; [reflexivity |]. split; [vm_compute; reflexivity |].
  split; [vm_compute; reflexivity |]. split; [exact Hr |].
  intros (response & Hres & Hstatus & _).
  rewrite Hr in Hres. injection Hres as <-. discriminate Hstatus.
Qed.

(** C1, amended: on every paginated list endpoint a valid request for
    which the facade returns an empty array is answered with status 204
    and an empty body. *)
Theorem empty_page_is_204 e raw W (c : Collaborators W) w :
  paginated e = true -> valid e raw ->
  outcomes (trace (run c (serve e raw) w)) = [inr (VArr [])] ->
  result (run c (serve e raw) w) =
    inr {| statusCode := 204; contentType := None; sent := Ended |}.
Proof.
  intros He Hv Hout.
  rewrite (answer_of_outcome e raw W c w _ Hv Hout).
  destruct e; try discriminate He; reflexivity.
Qed.

Lemma empty_page_is_204_witness :
  let raw := request [] [("offset", "9000000")] [] in
  let r := run (settling (inr (VArr []))) (serve IngredientCategoryList raw) [] in
  paginated IngredientCategoryList = true /\ valid IngredientCategoryList raw /\
  outcomes (trace r) = [inr (VArr [])] /\
  result r = inr {| statusCode := 204; contentType := None; sent := Ended |}.
Proof.
  intros raw r.
  assert (Hv : valid IngredientCategoryList raw) by (vm_compute; reflexivity).
  assert (Hout : outcomes (trace r) = [inr (VArr [])]) by (vm_compute; reflexivity).
  split; [reflexivity | split; [exact Hv | split; [exact Hout |]]].
  exact (empty_page_is_204 IngredientCategoryList raw _ (settling (inr (VArr []))) []
           eq_refl Hv Hout).
Defined.

(** A page with rows is returned as it is. *)
Lemma page_with_rows_is_200 e raw W (c : Collaborators W) w row rows :
  paginated e = true -> valid e raw ->
  outcomes (trace (run c (serve e raw) w)) = [inr (VArr (row :: rows))] ->
  result (run c (serve e raw) w) =
    inr {| statusCode := 200; contentType := Some "application/json";
           sent := Json (VArr (row :: rows)) |}.
Proof.
  intros He Hv Hout.
  rewrite (answer_of_outcome e raw W c w _ Hv Hout).
  destruct e; try discriminate He; reflexivity.
Qed.

(** ** Counts *)

(** C8: the count endpoints declare no validation chain and their
    program does not depend on the request.  A run issues one [count];
    when it resolves, with any count [n], zero included (indeed with any
    value), the response is 200 with that value as its JSON body: there
    is no 204 branch. *)
Theorem count_is_200 e raw W (c : Collaborators W) w :
  counting e = true ->
  let r := run c (serve e raw) w in
  chains (route e) = [] /\
  (forall raw', serve e raw' = serve e raw) /\
  exists m o,
    calls (trace r) = [count m] /\ outcomes (trace r) = [o] /\
    (forall v, o = inr v ->
       result r = inr {| statusCode := 200; contentType := Some "application/json";
                         sent := Json v |}) /\
    (forall n : Z, o = inr (VNum n) ->
       result r = inr {| statusCode := 200; contentType := Some "application/json";
                         sent := Json (VNum n) |}).
Proof.
  intros He r. subst r.
  destruct e; try discriminate He; (split; [reflexivity |]; split; [reflexivity |]);
    unfold serve, dispatch; simpl; unfold mbind, Handler_bind; simpl;
    destruct (facade c _ _) as [[f | v'] w'] eqn:Hfacade; simpl;
    (eexists _, _; split; [reflexivity |]; split; [reflexivity |]; split;
     [intros v [= <-] | intros n [= <-]]; reflexivity) ||
    (eexists _, _; split; [reflexivity |]; split; [reflexivity |]; split;
     [intros v [=] | intros n [=]]).
Qed.

Lemma count_is_200_witness :
  let r := run (settling (inr (VNum 0))) (serve IngredientCount (request [] [] [])) [] in
  counting IngredientCount = true /\
  outcomes (trace r) = [inr (VNum 0)] /\
  result r = inr {| statusCode := 200; contentType := Some "application/json";
                    sent := Json (VNum 0) |}.
Proof.
  intros r.
  split; [reflexivity |].
  destruct (count_is_200 IngredientCount (request [] [] []) _
              (settling (inr (VNum 0))) [] eq_refl)
    as (_ & _ & m & o & _ & Ho & _ & Hnum).
  assert (Hout : outcomes (trace r) = [inr (VNum 0)]) by (vm_compute; reflexivity).
  split; [exact Hout |].
  apply Hnum. subst r. rewrite Ho in Hout. by injection Hout.
Defined.

(** ** Mutations *)

(** C6 (as the spec states it) fails: the flavor-identifier DELETE, given
    the number 0 by [destroy], a value that has no length at all, answers
    204 and not 200 with the raw result. *)
Lemma mutation_zero_rows_is_not_200 :
  let raw := request [("flavorId", "1"); ("dataSupplierId", "2")] [] [] in
  let r := run (settling (inr (VNum 0))) (serve FlavorIdentifierDelete raw) [] in
  mutation FlavorIdentifierDelete = true /\ valid FlavorIdentifierDelete raw /\
  outcomes (trace r) = [inr (VNum 0)] /\
  js_length (VNum 0) = inr VUndefined /\ has_zero_length (VNum 0) = false /\
  result r = inr {| statusCode := 204; contentType := None; sent := Ended |} /\
  result r <> inr {| statusCode := 200; contentType := Some "application/json";
                     sent := Json (VNum 0) |}.
Proof.
  intros raw r.
  assert (Hr : result r = inr {| statusCode := 204; contentType := None; sent := Ended |})
    by (vm_compute; reflexivity).
  split; [reflexivity |]. split; [vm_compute; reflexivity |].
  split; [vm_compute; reflexivity |]. split; [reflexivity |].
  split; [reflexivity |]. split; [exact Hr |].
  rewrite Hr. discriminate.
Qed.

(** C6, amended: on every mutation endpoint (create, update, delete) a
    valid request whose facade result is neither [null] nor [undefined]
    is answered with 204 and an empty body when the result has zero
    length, or when the endpoint is the flavor-identifier DELETE and the
    result is falsy; otherwise with 200 and the raw result as JSON
    body. *)
Theorem mutation_shaping e raw W (c : Collaborators W) w v :
  mutation e = true -> valid e raw ->
  outcomes (trace (run c (serve e raw) w)) = [inr v] ->
  v <> VNull -> v <> VUndefined ->
  result (run c (serve e raw) w) =
    inr (if has_zero_length v || (identifier_delete e && negb (truthy v))
         then {| statusCode := 204; contentType := None; sent := Ended |}
         else {| statusCode := 200; contentType := Some "application/json";
                 sent := Json v |}).
Proof.
  intros He Hv Hout Hnull Hundef.
  rewrite (answer_of_outcome e raw W c w _ Hv Hout).
  destruct (identifier_delete e) eqn:Hid.
  - destruct e; try discriminate Hid. simpl.
    by rewrite orb_comm.
  - simpl. rewrite orb_false_r. unfold has_zero_length.
    destruct e; try discriminate He; try discriminate Hid; simpl;
      destruct v; try congruence; reflexivity.
Qed.

Lemma mutation_shaping_witness :
  let raw := request [("id", "7")]
                     []
                     [("vendorId", "3"); ("name", "Pear"); ("slug", "pear");
                      ("density", "1.03")] in
  let r := run (settling (inr (VArr [VNum 1]))) (serve FlavorUpdate raw) [] in
  mutation FlavorUpdate = true /\ valid FlavorUpdate raw /\
  outcomes (trace r) = [inr (VArr [VNum 1])] /\
  result r = inr {| statusCode := 200; contentType := Some "application/json";
                    sent := Json (VArr [VNum 1]) |}.
Proof.
  intros raw r.
  assert (Hv : valid FlavorUpdate raw) by (vm_compute; reflexivity).
  assert (Hout : outcomes (trace r) = [inr (VArr [VNum 1])]) by (vm_compute; reflexivity).
  split; [reflexivity | split; [exact Hv | split; [exact Hout |]]].
  exact (mutation_shaping FlavorUpdate raw _ (settling (inr (VArr [VNum 1]))) []
           (VArr [VNum 1]) eq_refl Hv Hout ltac:(discriminate) ltac:(discriminate)).
Defined.

(** A [null] result is outside C6 as amended: reading its [length]
    throws inside the [try], and the [catch] block answers 500 (the
    flavor-identifier DELETE tests [!result] first and answers 204). *)
Example update_null_is_500 :
  let raw := request [("id", "7")] []
               [("vendorId", "3"); ("name", "Pear"); ("slug", "pear");
                ("density", "1.03")] in
  run (settling (inr VNull)) (serve FlavorUpdate raw) [] =
  {| result := inr {| statusCode := 500; contentType := None;
                      sent := Text "Cannot read property 'length' of null" |};
     world := ["Cannot read property 'length' of null";
               "request to update flavor id 7"];
     trace := [Logged "flavor" Info "request to update flavor id 7";
               Called (update Flavor
                         [("vendorId", VNum 3); ("name", VStr "Pear");
                          ("slug", VStr "pear"); ("density", VStr "1.03")]
                         {| where_ := [("id", VNum 7)]; include := [];
                            limit := None; offset := None; order := [] |})
                      (inr VNull);
               Logged "flavor" Error "Cannot read property 'length' of null"] |} /\
  result (run (settling (inr VNull))
            (serve FlavorIdentifierDelete
               (request [("flavorId", "1"); ("dataSupplierId", "2")] [] [])) []) =
  inr {| statusCode := 204; contentType := None; sent := Ended |}.
Proof. split; vm_compute; reflexivity. Qed.

(** C9: the two delete handlers shape a zero-row outcome differently.
    The flavor-identifier DELETE answers 204 whenever the result of
    [destroy] is falsy or has zero length, so also for the number 0; the
    flavor DELETE tests the length alone, and given the number 0 it
    answers 200 with 0 as the JSON body. *)
Theorem delete_zero_rows rawI rawF W (c : Collaborators W) wI wF v :
  valid FlavorIdentifierDelete rawI -> valid FlavorDelete rawF ->
  let rI := run c (serve FlavorIdentifierDelete rawI) wI in
  let rF := run c (serve FlavorDelete rawF) wF in
  outcomes (trace rI) = [inr v] ->
  outcomes (trace rF) = [inr (VNum 0)] ->
  (truthy v = false \/ js_length v = inr (VNum 0) ->
   result rI = inr {| statusCode := 204; contentType := None; sent := Ended |}) /\
  (v = VNum 0 ->
   result rI = inr {| statusCode := 204; contentType := None; sent := Ended |}) /\
  result rF = inr {| statusCode := 200; contentType := Some "application/json";
                     sent := Json (VNum 0) |}.
Proof.
  intros HvI HvF rI rF HoutI HoutF. subst rI rF.
  rewrite (answer_of_outcome _ _ W c wI _ HvI HoutI).
  rewrite (answer_of_outcome _ _ W c wF _ HvF HoutF).
  assert (Hfalsy : truthy v = false \/ js_length v = inr (VNum 0) ->
                   answer FlavorIdentifierDelete v = no_content).
  { unfold answer, has_zero_length. intros [-> | ->]; [reflexivity |].
    simpl. by rewrite orb_true_r. }
  split; [intros H; by rewrite Hfalsy |].
  split; [| reflexivity].
  intros ->. reflexivity.
Qed.

Lemma delete_zero_rows_witness :
  let rawI := request [("flavorId", "1"); ("dataSupplierId", "2")] [] [] in
  let rawF := request [("id", "1")] [] [] in
  let rI := run (settling (inr (VNum 0))) (serve FlavorIdentifierDelete rawI) [] in
  let rF := run (settling (inr (VNum 0))) (serve FlavorDelete rawF) [] in
  valid FlavorIdentifierDelete rawI /\ valid FlavorDelete rawF /\
  outcomes (trace rI) = [inr (VNum 0)] /\ outcomes (trace rF) = [inr (VNum 0)] /\
  result rI = inr {| statusCode := 204; contentType := None; sent := Ended |} /\
  result rF = inr {| statusCode := 200; contentType := Some "application/json";
                     sent := Json (VNum 0) |}.
Proof.
  intros rawI rawF rI rF.
  assert (HvI : valid FlavorIdentifierDelete rawI) by (vm_compute; reflexivity).
  assert (HvF : valid FlavorDelete rawF) by (vm_compute; reflexivity).
  assert (HoI : outcomes (trace rI) = [inr (VNum 0)]) by (vm_compute; reflexivity).
  assert (HoF : outcomes (trace rF) = [inr (VNum 0)]) by (vm_compute; reflexivity).
  destruct (delete_zero_rows rawI rawF _ (settling (inr (VNum 0))) [] [] (VNum 0)
              HvI HvF HoI HoF) as (_ & HI & HF).
  repeat (split; [assumption |]).
  split; [exact (HI eq_refl) | exact HF].
Defined.

(** ** Pagination *)

(** What the chains of a list route leave in [req.query]: [offset] and
    [limit] are absent, or what [toInt] made of the strings supplied. *)
Lemma validated_query e raw key :
  paginated e = true -> key = "offset" \/ key = "limit" ->
  prop (Req.query (validated e raw)) key =
  from_option parseInt VUndefined (raw_query raw !! key).
Proof.
  intros He Hkey.
  assert (Hrun : validated e raw =
                 ExpressValidator.run
                   [ExpressValidator.toInt (ExpressValidator.isNumeric
                      (ExpressValidator.optional (ExpressValidator.query "offset")));
                    ExpressValidator.toInt (ExpressValidator.isNumeric
                      (ExpressValidator.optional (ExpressValidator.query "limit")))]
                   raw).
  { destruct e; try discriminate He; reflexivity. }
  rewrite Hrun. clear Hrun He.
  unfold prop, ExpressValidator.run, ExpressValidator.run_chain. simpl.
  destruct (raw_query raw !! "offset") as [o |] eqn:Hoffset;
    destruct (raw_query raw !! "limit") as [l |] eqn:Hlimit; simpl;
    destruct Hkey as [-> | ->];
    repeat (rewrite lookup_insert_eq || rewrite lookup_insert_ne by done);
    rewrite ?lookup_fmap, ?Hoffset, ?Hlimit; reflexivity.
Qed.

(** No validated list request reaches the subtraction with a string: the
    operand is [undefined], [NaN] or a number. *)
Lemma validated_pagination_is_numeric e raw :
  paginated e = true ->
  match prop (Req.query (validated e raw)) "offset" with
  | VUndefined | VNaN | VNum _ => True
  | _ => False
  end.
Proof.
  intros He. rewrite (validated_query e raw "offset" He) by auto.
  destruct (raw_query raw !! "offset") as [s |]; simpl; [| exact I].
  unfold parseInt.
  destruct (read_sign (skip_spaces s)) as [neg s1].
  destruct (read_digits 0 0 s1) as [[n count] rest].
  destruct count; exact I.
Qed.




Example list_offset_0 :
  calls (trace (run (settling (inr (VArr [pear])))
                  (serve IngredientList (request [] [("offset", "0")] [])) [])) =
  [findAll Ingredient
     {| where_ := []; include := [{| model := IngredientCategory; require := true |}];
        limit := Some (VNum 20); offset := Some (VNum (-1)); order := [] |}].
Proof. vm_compute. reflexivity. Qed.

Example list_offset_absent_or_1 :
  calls (trace (run (settling (inr (VArr [pear])))
                  (serve IngredientList (request [] [("limit", "2")] [])) [])) =
  [findAll Ingredient
     {| where_ := []; include := [{| model := IngredientCategory; require := true |}];
        limit := Some (VNum 2); offset := Some (VNum 0); order := [] |}] /\
  calls (trace (run (settling (inr (VArr [pear])))
                  (serve IngredientList (request [] [("offset", "1")] [])) [])) =
  [findAll Ingredient
     {| where_ := []; include := [{| model := IngredientCategory; require := true |}];
        limit := Some (VNum 20); offset := Some (VNum 0); order := [] |}].
Proof. split; vm_compute; reflexivity. Qed.

(** ** The id 0 *)

Lemma errors_of_id_0 e raw :
  e = FlavorById \/ e = IngredientById ->
  raw_params raw !! "id" = Some "0" ->
  Req.validationErrors (validated e raw) = [id_0_rejected].
Proof.
  intros He Hid.
  unfold validated, ExpressValidator.run.
  rewrite foldl_run_chain_errors.
  destruct He as [-> | ->]; simpl; rewrite Hid; reflexivity.
Qed.

(** C5 (as the spec states it) fails: GET /0 on the flavor route is
    answered with 400, whatever the facade would have found; the handler
    never asks it. *)
Lemma get_0_is_not_204 :
  let raw := request [("id", "0")] [] [] in
  let r := run (settling (inr VNull)) (serve FlavorById raw) [] in
  result r =
    inr {| statusCode := 400; contentType := None;
           sent := Json (VObj [("errors", VArr
             [VObj [("value", VStr "0"); ("msg", VStr "Invalid value");
                    ("param", VStr "id"); ("location", VStr "params")]])]) |} /\
  trace r = [] /\
  ~ (exists response, result r = inr response /\ statusCode response = 204).
Proof.
  intros raw r.
  assert (Hr : result r =
    inr {| statusCode := 400; contentType := None;
           sent := Json (VObj [("errors", VArr
             [VObj [("value", VStr "0"); ("msg", VStr "Invalid value");
                    ("param", VStr "id"); ("location", VStr "params")]])]) |})
    by (vm_compute; reflexivity).
  split; [exact Hr |]. split; [vm_compute; reflexivity |].
  intros (response & Hres & Hstatus).
  rewrite Hr in Hres. injection Hres as <-. discriminate Hstatus.
Qed.

(** C5, amended: a GET for the single-entity route with id 0 (GET /0, on
    the flavor and on the ingredient route) is answered with status 400
    and a JSON body [{ errors: [...] }] whose one descriptor rejects the
    [id]: the chain requires an integer of at least 1.  No facade
    operation is issued. *)
Theorem get_0_is_400 e raw W (c : Collaborators W) w :
  e = FlavorById \/ e = IngredientById ->
  raw_params raw !! "id" = Some "0" ->
  let r := run c (serve e raw) w in
  result r =
    inr {| statusCode := 400; contentType := None;
           sent := Json (VObj [("errors", VArr
             [VObj [("value", VStr "0"); ("msg", VStr "Invalid value");
                    ("param", VStr "id"); ("location", VStr "params")]])]) |} /\
  calls (trace r) = [] /\
  validatorjs.isNumeric "0" = true /\ validatorjs.isInt (Some 1) "0" = false.
Proof.
  intros He Hid r. subst r.
  pose proof (errors_of_id_0 e raw He Hid) as Herr.
  assert (Hinv : ~ valid e raw) by (unfold valid; rewrite Herr; discriminate).
  rewrite (serve_invalid _ _ Hinv), Herr.
  repeat split.
Qed.

Lemma get_0_is_400_witness :
  let raw := request [("id", "0")] [] [] in
  let r := run (settling (inr pear)) (serve IngredientById raw) [] in
  raw_params raw !! "id" = Some "0" /\
  result r =
    inr {| statusCode := 400; contentType := None;
           sent := Json (VObj [("errors", VArr
             [VObj [("value", VStr "0"); ("msg", VStr "Invalid value");
                    ("param", VStr "id"); ("location", VStr "params")]])]) |}.
Proof.
  intros raw r.
  assert (Hid : raw_params raw !! "id" = Some "0") by (vm_compute; reflexivity).
  split; [exact Hid |].
  exact (proj1 (get_0_is_400 IngredientById raw _ (settling (inr pear)) []
                  (or_intror eq_refl) Hid)).
Defined.

(** ** The whole run *)

(** The run on a resolved operation: the answer, and either nothing more
    in the trace or the error line of the [catch] block. *)
Lemma run_value e raw W (c : Collaborators W) w v :
  valid e raw ->
  outcomes (trace (run c (serve e raw) w)) = [inr v] ->
  exists logger m op,
    result (run c (serve e raw) w) = inr (answer e v) /\
    ((statusCode (answer e v) <> 500 /\
      trace (run c (serve e raw) w) = [Logged logger Info m; Called op (inr v)]) \/
     (exists m', answer e v = server_error m' /\
        trace (run c (serve e raw) w) =
          [Logged logger Info m; Called op (inr v); Logged logger Error m'])).
Proof.
  intros Hv.
  unfold valid, serve, dispatch in *; fold (validated e raw) in *.
  set (req := validated e raw) in *. clearbody req.
  enter e; try rewrite Hv; simpl;
    destruct (facade c _ _) as [o' w'] eqn:Hfacade; simpl;
    intros [= -> _]; simpl;
    unfold has_zero_length;
    destruct v; simpl;
    repeat match goal with
      | |- context [strict_eq_num ?x 0] => destruct (strict_eq_num x 0); simpl
      | |- context [if negb ?b then _ else _] => destruct b; simpl
      | |- context [if ?b then _ else _] => destruct b; simpl
      end;
    (eexists _, _, _; split; [reflexivity |];
     first [ left; split; [discriminate | reflexivity]
           | right; eexists; split; reflexivity ]).
Qed.

Lemma answer_cases e v :
  answer e v = ok v \/ answer e v = no_content \/
  exists m, answer e v = server_error m.
Proof.
  unfold answer, has_zero_length.
  destruct e; destruct v; simpl;
    repeat match goal with
      | |- context [strict_eq_num ?x 0] => destruct (strict_eq_num x 0); simpl
      | |- context [if negb ?b then _ else _] => destruct b; simpl
      | |- context [if ?b then _ else _] => destruct b; simpl
      end; eauto.
Qed.

(** X1: every run ends with one of four responses, and each status has
    its own body.  A 200 carries the value the facade resolved with,
    typed as JSON; a 204 is empty and follows a resolved operation; a
    400 carries the error descriptors and follows no operation at all;
    a 500 carries a text that the run has logged as an error. *)
Theorem response_is_well_formed e raw W (c : Collaborators W) w :
  let r := run c (serve e raw) w in
  exists response,
    result r = inr response /\
    ((statusCode response = 200 /\ contentType response = Some "application/json" /\
      exists v, sent response = Json v /\ outcomes (trace r) = [inr v]) \/
     (statusCode response = 204 /\ contentType response = None /\
      sent response = Ended /\ exists v, outcomes (trace r) = [inr v]) \/
     (statusCode response = 400 /\ contentType response = None /\
      sent response =
        Json (VObj [("errors",
                     ExpressValidator.array (Req.validationErrors (validated e raw)))]) /\
      trace r = []) \/
     (statusCode response = 500 /\ contentType response = None /\
      exists m, sent response = Text m /\ In (Error, m) (logged (trace r)))).
Proof.
  intros r. subst r.
  destruct (decide (valid e raw)) as [Hv | Hinv].
  - destruct (run_valid e raw W c w Hv) as (logger & m & op & o & _ & Ho & Hfault).
    destruct o as [f | v].
    + destruct (Hfault f eq_refl) as [-> ->].
      eexists. split; [reflexivity |]. do 3 right. simpl. eauto 10.
    + destruct (run_value e raw W c w v Hv Ho) as (lg & m0 & op0 & Hres & Htrace).
      rewrite Hres, Ho. eexists. split; [reflexivity |].
      destruct Htrace as [[Hne Htr] | (m' & Hans & Htr)].
      * destruct (answer_cases e v) as [-> | [-> | (m' & Hans)]].
        -- left. simpl. eauto.
        -- right. left. simpl. eauto.
        -- rewrite Hans in Hne. by destruct Hne.
      * do 3 right. rewrite Hans, Htr. simpl. eauto 10.
  - rewrite (serve_invalid _ _ Hinv). simpl.
    eexists. split; [reflexivity |]. right. right. left. auto.
Qed.

(** X2: an error line is logged exactly when the response is a 500, and
    the text sent is the line logged: no 500 goes unlogged and no error
    is logged behind another answer. *)
Theorem error_logged_iff_500 e raw W (c : Collaborators W) w m :
  let r := run c (serve e raw) w in
  In (Error, m) (logged (trace r)) <->
  result r = inr {| statusCode := 500; contentType := None; sent := Text m |}.
Proof.
  intros r. subst r.
  destruct (decide (valid e raw)) as [Hv | Hinv].
  - destruct (run_valid e raw W c w Hv) as (logger & m0 & op & o & _ & Ho & Hfault).
    destruct o as [f | v].
    + destruct (Hfault f eq_refl) as [-> ->]. simpl. split.
      * intros [[=] | [[= <-] | []]]. reflexivity.
      * intros [= <-]. auto.
    + destruct (run_value e raw W c w v Hv Ho) as (lg & m1 & op0 & Hres & Htrace).
      rewrite Hres.
      destruct Htrace as [[Hne ->] | (m' & Hans & ->)]; simpl.
      * split; [intros [[=] | []] |].
        intros [= Hans]. rewrite Hans in Hne. by destruct Hne.
      * rewrite Hans. split.
        -- intros [[=] | [[= <-] | []]]. reflexivity.
        -- intros [= <-]. auto.
  - rewrite (serve_invalid _ _ Hinv). simpl. split; [intros [] | intros [=]].
Qed.

(** X3: five of the six mutation handlers read [result.length] without
    a guard.  When the facade resolves with [null] or [undefined] the
    read throws a [TypeError] inside the [try]: the request is answered
    500 with the error's message, which is logged, although the
    operation itself succeeded. *)
Theorem unguarded_length_read e raw W (c : Collaborators W) w v :
  unguarded_mutation e = true -> valid e raw ->
  outcomes (trace (run c (serve e raw) w)) = [inr v] ->
  v = VNull \/ v = VUndefined ->
  let r := run c (serve e raw) w in
  result r = inr {| statusCode := 500; contentType := None;
                    sent := Text (message (TypeError_length v)) |} /\
  name (TypeError_length v) = "TypeError" /\
  In (Error, message (TypeError_length v)) (logged (trace r)).
Proof.
  intros He Hv Hout Hnull r. subst r.
  assert (Hres : result (run c (serve e raw) w) =
                 inr {| statusCode := 500; contentType := None;
                        sent := Text (message (TypeError_length v)) |}).
  { rewrite (answer_of_outcome e raw W c w v Hv Hout).
    destruct e; try discriminate He; destruct Hnull as [-> | ->]; reflexivity. }
  split; [exact Hres |]. split; [reflexivity |].
  destruct (run_value e raw W c w v Hv Hout) as (lg & m & op & Hans & Htrace).
  rewrite Hans in Hres. injection Hres as Hres.
  destruct Htrace as [[Hne _] | (m' & Hm' & ->)].
  - rewrite Hres in Hne. by destruct Hne.
  - rewrite Hm' in Hres. injection Hres as ->. simpl. auto.
Qed.

Lemma unguarded_length_read_witness :
  let raw := request [("flavorId", "1")] []
               [("dataSupplierId", "2"); ("identifier", "CAP-PEAR")] in
  let r := run (settling (inr VUndefined)) (serve FlavorIdentifierCreate raw) [] in
  unguarded_mutation FlavorIdentifierCreate = true /\
  valid FlavorIdentifierCreate raw /\
  outcomes (trace r) = [inr VUndefined] /\
  result r = inr {| statusCode := 500; contentType := None;
                    sent := Text "Cannot read property 'length' of undefined" |}.
Proof.
  intros raw r.
  assert (Hv : valid FlavorIdentifierCreate raw) by (vm_compute; reflexivity).
  assert (Hout : outcomes (trace r) = [inr VUndefined]) by (vm_compute; reflexivity).
  split; [reflexivity | split; [exact Hv | split; [exact Hout |]]].
  exact (proj1 (unguarded_length_read FlavorIdentifierCreate raw _
                  (settling (inr VUndefined)) [] VUndefined eq_refl Hv Hout
                  (or_intror eq_refl))).
Defined.

(** X4: a list route, paginated or not, answers a resolved operation
    with 200 and the raw result when the result is an array with at
    least one element, and with 204 and no body for anything else: an
    empty array, [null], an object, a number.  It never answers 500 to a
    resolved operation. *)
Theorem list_shaping e raw W (c : Collaborators W) w v :
  listing e = true -> valid e raw ->
  outcomes (trace (run c (serve e raw) w)) = [inr v] ->
  result (run c (serve e raw) w) =
    inr (match v with
         | VArr (_ :: _) =>
             {| statusCode := 200; contentType := Some "application/json";
                sent := Json v |}
         | _ => {| statusCode := 204; contentType := None; sent := Ended |}
         end).
Proof.
  intros He Hv Hout.
  rewrite (answer_of_outcome e raw W c w v Hv Hout).
  destruct e; try discriminate He; destruct v as [| | | | | | [| x xs] |]; reflexivity.
Qed.

Lemma list_shaping_witness :
  let raw := request [("flavorId", "12")] [] [] in
  let r := run (settling (inr VNull)) (serve FlavorIdentifiers raw) [] in
  listing FlavorIdentifiers = true /\ valid FlavorIdentifiers raw /\
  outcomes (trace r) = [inr VNull] /\
  result r = inr {| statusCode := 204; contentType := None; sent := Ended |}.
Proof.
  intros raw r.
  assert (Hv : valid FlavorIdentifiers raw) by (vm_compute; reflexivity).
  assert (Hout : outcomes (trace r) = [inr VNull]) by (vm_compute; reflexivity).
  split; [reflexivity | split; [exact Hv | split; [exact Hout |]]].
  exact (list_shaping FlavorIdentifiers raw _ (settling (inr VNull)) [] VNull
           eq_refl Hv Hout).
Defined.
